(** * Vendure plugin surface: job schema, plugin decorator, custom fields,
      worker shutdown

    A verification development over four fragments of the Vendure core:

    - the job GraphQL schema ([type Query], [enum JobState],
      [input JobListInput], [type JobInfo]);
    - the [VendurePlugin] class decorator of
      [packages/core/src/plugin/vendure-plugin.ts] and the type declarations
      around it;
    - the custom-field configuration types ([CustomFieldType],
      [DefaultValueType], [TypedCustomFieldConfig], [CustomFields]);
    - the [WorkerModule] life-cycle methods of
      [packages/core/src/worker/worker.module.ts].

    Declarations (GraphQL SDL, TypeScript interfaces and aliases) are embedded
    as data, field by field and in source order.  Code is embedded as programs
    over the calls it makes to its environment ([Reflect.defineMetadata], the
    Nest [Module] decorator, the injected [WorkerMonitor], [Logger.info]). *)

From stdpp Require Import base option list strings gmap fin_maps.

Local Open Scope string_scope.
#[local] Set Warnings "-register-all".

(* ===================================================================== *)
(** * The job GraphQL schema *)
(* ===================================================================== *)

Module JobSchema.
(** A GraphQL type reference: a named type, a list [[t]], or a non-null
    marker [t!]. *)
Inductive GqlType : Type :=
| Named (name : string)
| ListOf (t : GqlType)
| NonNull (t : GqlType).

(** An argument of a field, or a field of an input object. *)
Record InputValue : Type := mkInputValue {
  input_name : string;
  input_type : GqlType
}.

Record FieldDef : Type := mkField {
  field_name : string;
  field_args : list InputValue;
  field_type : GqlType
}.

Inductive TypeDef : Type :=
| ObjectType (name : string) (fields : list FieldDef)
| EnumType (name : string) (members : list string)
| InputObjectType (name : string) (fields : list InputValue).

(** The schema document, definition by definition. *)
Definition Query : TypeDef :=
  ObjectType "Query"
    [ mkField "job" [mkInputValue "jobId" (NonNull (Named "String"))]
              (Named "JobInfo");
      mkField "jobs" [mkInputValue "input" (Named "JobListInput")]
              (NonNull (ListOf (NonNull (Named "JobInfo")))) ].

Definition JobState : TypeDef :=
  EnumType "JobState" ["PENDING"; "RUNNING"; "COMPLETED"; "FAILED"].

Definition JobListInput : TypeDef :=
  InputObjectType "JobListInput"
    [ mkInputValue "state" (Named "JobState");
      mkInputValue "ids" (ListOf (NonNull (Named "String"))) ].

Definition JobInfo : TypeDef :=
  ObjectType "JobInfo"
    [ mkField "id" [] (NonNull (Named "String"));
      mkField "name" [] (NonNull (Named "String"));
      mkField "state" [] (NonNull (Named "JobState"));
      mkField "progress" [] (NonNull (Named "Float"));
      mkField "result" [] (Named "JSON");
      mkField "started" [] (Named "DateTime");
      mkField "ended" [] (Named "DateTime");
      mkField "duration" [] (Named "Int") ].

Definition schema : list TypeDef := [Query; JobState; JobListInput; JobInfo].

(** ** Queries over a schema document *)

(** A type reference is nullable unless its outermost marker is [!]. *)
Definition nullable (t : GqlType) : bool :=
  match t with
  | NonNull _ => false
  | _ => true
  end.

(** The fields of every object type called [n] in the document. *)
Definition object_fields (n : string) (s : list TypeDef) : list (list FieldDef) :=
  omap (fun d => match d with
                 | ObjectType m fs => if String.eqb m n then Some fs else None
                 | _ => None
                 end) s.

(** Object types other than the root operation type [Query]. *)
Definition object_types (s : list TypeDef) : list (string * list FieldDef) :=
  omap (fun d => match d with
                 | ObjectType m fs => if String.eqb m "Query" then None else Some (m, fs)
                 | _ => None
                 end) s.

Definition enum_types (s : list TypeDef) : list (string * list string) :=
  omap (fun d => match d with
                 | EnumType m vs => Some (m, vs)
                 | _ => None
                 end) s.

Definition input_fields (n : string) (s : list TypeDef) : list (list InputValue) :=
  omap (fun d => match d with
                 | InputObjectType m fs => if String.eqb m n then Some fs else None
                 | _ => None
                 end) s.

(** The fields of the single definition of object type [n], or [[]]. *)
Definition fields_of (n : string) (s : list TypeDef) : list FieldDef :=
  match object_fields n s with
  | [fs] => fs
  | _ => []
  end.

Definition find_field (n : string) (fs : list FieldDef) : option FieldDef :=
  List.find (fun f => String.eqb (field_name f) n) fs.

(** The type of field [f] of object type [o]. *)
Definition field_type_of (o f : string) (s : list TypeDef) : option GqlType :=
  field_type <$> find_field f (fields_of o s).

(** Signature of a field: its name and [(argument name, argument type)]
    pairs. *)
Definition signature (f : FieldDef) : string * list (string * GqlType) :=
  (field_name f, (fun a => (input_name a, input_type a)) <$> field_args f).

(** Names of the fields of a type that may / may not hold [null]. *)
Definition nullable_fields (fs : list FieldDef) : list string :=
  field_name <$> filter (fun f => nullable (field_type f) = true) fs.

Definition non_null_fields (fs : list FieldDef) : list string :=
  field_name <$> filter (fun f => nullable (field_type f) = false) fs.

End JobSchema.

(* ===================================================================== *)
(** * TypeScript declarations as data *)
(* ===================================================================== *)

Module TS.
(** The keyword types the declarations use. *)
Inductive Keyword : Type := KString | KNumber | KBoolean | KVoid | KAny | KNever.

(** Type expressions.  [TRef n args] is a reference to a named type with its
    type arguments ([Promise<void>], [Array<Type<any>>], a type parameter
    [T]); [TLiteral s] is the string literal type ['s']; [TObject] is an
    object literal type whose members are [(name, optional?, type)];
    [TConditional c e a b] is [c extends e ? a : b]. *)
Inductive TsType : Type :=
| TKeyword (k : Keyword)
| TLiteral (s : string)
| TRef (name : string) (args : list TsType)
| TArray (elem : TsType)
| TUnion (alts : list TsType)
| TIntersection (parts : list TsType)
| TFunction (params : list (string * TsType)) (ret : TsType)
| TObject (members : list (string * bool * TsType))
| TConditional (check extends_ then_ else_ : TsType).

(** Members of an interface. *)
Inductive Member : Type :=
| Property (name : string) (optional : bool) (type : TsType)
| Method (name : string) (params : list (string * TsType)) (ret : TsType).

Inductive Decl : Type :=
| Interface (name : string) (extends : list TsType) (members : list Member)
| TypeAlias (name : string) (params : list (string * TsType)) (body : TsType).

Definition decl_name (d : Decl) : string :=
  match d with Interface n _ _ | TypeAlias n _ _ => n end.

Definition find_decl (n : string) (ds : list Decl) : option Decl :=
  List.find (fun d => String.eqb (decl_name d) n) ds.

(** Own members of the interface called [n]. *)
Definition interface_members (n : string) (ds : list Decl) : list Member :=
  match find_decl n ds with
  | Some (Interface _ _ ms) => ms
  | _ => []
  end.

Definition interface_extends (n : string) (ds : list Decl) : list TsType :=
  match find_decl n ds with
  | Some (Interface _ es _) => es
  | _ => []
  end.

Definition alias_body (n : string) (ds : list Decl) : option TsType :=
  match find_decl n ds with
  | Some (TypeAlias _ _ b) => Some b
  | _ => None
  end.

(** Own properties of an interface as [(name, optional?, type)]. *)
Definition properties (ms : list Member) : list (string * bool * TsType) :=
  omap (fun m => match m with
                 | Property n o t => Some (n, o, t)
                 | Method _ _ _ => None
                 end) ms.

Definition methods (ms : list Member)
  : list (string * list (string * TsType) * TsType) :=
  omap (fun m => match m with
                 | Method n ps r => Some (n, ps, r)
                 | Property _ _ _ => None
                 end) ms.

(** The string literals a literal type or a union of literal types admits. *)
Definition literals (t : TsType) : list string :=
  match t with
  | TLiteral s => [s]
  | TUnion alts =>
      omap (fun a => match a with TLiteral s => Some s | _ => None end) alts
  | _ => []
  end.

(** ['s' extends e] for a literal type or a union of literal types [e]. *)
Definition literal_extends (s : string) (e : TsType) : bool :=
  existsb (String.eqb s) (literals e).

(** Resolution of a chain of conditional types on the parameter [p] when the
    argument is the literal type ['s']: [p extends e ? a : b] takes [a] when
    ['s'] is assignable to [e], and otherwise resolves [b]. *)
Fixpoint resolve (p s : string) (t : TsType) : TsType :=
  match t with
  | TConditional (TRef q []) e a b =>
      if String.eqb q p
      then if literal_extends s e then resolve p s a else resolve p s b
      else t
  | _ => t
  end.

(** Names of the types an intersection or a reference mentions at top level. *)
Definition ref_names (t : TsType) : list string :=
  match t with
  | TRef n _ => [n]
  | TIntersection ps | TUnion ps =>
      omap (fun a => match a with TRef n _ => Some n | _ => None end) ps
  | _ => []
  end.

End TS.

(* ===================================================================== *)
(** * Declarations of [vendure-plugin.ts] *)
(* ===================================================================== *)

Module PluginTypes.
Import TS.

(** [Array<Type<any>>]: an array of classes. *)
Definition class_array : TsType :=
  TRef "Array" [TRef "Type" [TKeyword KAny]].

Definition APIExtensionDefinition : Decl :=
  Interface "APIExtensionDefinition" []
    [ Property "schema" true (TRef "DocumentNode" []);
      Property "resolvers" false class_array ].

Definition required_config : TsType :=
  TRef "Required" [TRef "VendureConfig" []].

Definition PluginConfigurationFn : Decl :=
  TypeAlias "PluginConfigurationFn" []
    (TFunction [("config", required_config)]
       (TUnion [required_config; TRef "Promise" [required_config]])).

Definition VendurePluginMetadata : Decl :=
  Interface "VendurePluginMetadata" [TRef "ModuleMetadata" []]
    [ Property "configuration" true (TRef "PluginConfigurationFn" []);
      Property "shopApiExtensions" true (TRef "APIExtensionDefinition" []);
      Property "adminApiExtensions" true (TRef "APIExtensionDefinition" []);
      Property "workers" true class_array;
      Property "entities" true class_array ].

(** [void | Promise<void>] *)
Definition void_or_promise : TsType :=
  TUnion [TKeyword KVoid; TRef "Promise" [TKeyword KVoid]].

Definition OnVendureBootstrap : Decl :=
  Interface "OnVendureBootstrap" []
    [ Method "onVendureBootstrap" [] void_or_promise ].

Definition OnVendureWorkerBootstrap : Decl :=
  Interface "OnVendureWorkerBootstrap" []
    [ Method "onVendureWorkerBootstrap" [] void_or_promise ].

Definition OnVendureClose : Decl :=
  Interface "OnVendureClose" []
    [ Method "onVendureClose" [] void_or_promise ].

Definition OnVendureWorkerClose : Decl :=
  Interface "OnVendureWorkerClose" []
    [ Method "onVendureWorkerClose" [] void_or_promise ].

Definition PluginLifecycleMethods : Decl :=
  TypeAlias "PluginLifecycleMethods" []
    (TIntersection [ TRef "OnVendureBootstrap" [];
                     TRef "OnVendureWorkerBootstrap" [];
                     TRef "OnVendureClose" [];
                     TRef "OnVendureWorkerClose" [] ]).

(** Every interface and type alias the file declares, in source order. *)
Definition declarations : list Decl :=
  [ APIExtensionDefinition; PluginConfigurationFn; VendurePluginMetadata;
    OnVendureBootstrap; OnVendureWorkerBootstrap; OnVendureClose;
    OnVendureWorkerClose; PluginLifecycleMethods ].

(** The property names [VendurePluginMetadata] adds to [ModuleMetadata]. *)
Definition vendure_specific_keys : list string :=
  (fun p => p.1.1) <$> properties (interface_members "VendurePluginMetadata" declarations).

(** A life-cycle hook: the interface that declares it, its name, its
    parameters and its return type. *)
Definition Hook : Type := string * string * list (string * TsType) * TsType.

Definition hooks_of (i : string) (ds : list Decl) : list Hook :=
  (fun m => (i, m.1.1, m.1.2, m.2)) <$> methods (interface_members i ds).

(** The hooks of the interfaces that [PluginLifecycleMethods] intersects. *)
Definition lifecycle_hooks (ds : list Decl) : list Hook :=
  match alias_body "PluginLifecycleMethods" ds with
  | Some t => i ← ref_names t; hooks_of i ds
  | None => []
  end.

(** Every method that any interface of the file declares. *)
Definition all_hooks (ds : list Decl) : list Hook :=
  d ← ds; match d with
          | Interface n _ _ => hooks_of n ds
          | TypeAlias _ _ _ => []
          end.

End PluginTypes.

(* ===================================================================== *)
(** * Custom-field configuration types *)
(* ===================================================================== *)

Module CustomFieldTypes.
Import TS.

(** [shared-types.ts] *)
Definition CustomFieldType : Decl :=
  TypeAlias "CustomFieldType" []
    (TUnion [ TLiteral "string"; TLiteral "localeString"; TLiteral "int";
              TLiteral "float"; TLiteral "boolean"; TLiteral "datetime" ]).

Definition CustomFieldType_body : TsType :=
  match CustomFieldType with
  | TypeAlias _ _ b => b
  | Interface _ _ _ => TKeyword KNever
  end.

(** The six custom field types. *)
Definition custom_field_types : list string := literals CustomFieldType_body.

(** The conditional type [DefaultValueType<T extends CustomFieldType>]. *)
Definition DefaultValueType_body : TsType :=
  TConditional (TRef "T" []) (TUnion [TLiteral "string"; TLiteral "localeString"])
    (TKeyword KString)
    (TConditional (TRef "T" []) (TUnion [TLiteral "int"; TLiteral "float"])
       (TKeyword KNumber)
       (TConditional (TRef "T" []) (TLiteral "boolean")
          (TKeyword KBoolean)
          (TConditional (TRef "T" []) (TLiteral "datetime")
             (TRef "Date" [])
             (TKeyword KNever)))).

Definition DefaultValueType_decl : Decl :=
  TypeAlias "DefaultValueType" [("T", TRef "CustomFieldType" [])]
    DefaultValueType_body.

(** [DefaultValueType<'t'>], resolved. *)
Definition DefaultValueType (t : string) : TsType :=
  resolve "T" t DefaultValueType_body.

(** The object type that [TypedCustomFieldConfig<T, C>] intersects with
    [Omit<C, '__typename'>]. *)
Definition typed_members : list (string * bool * TsType) :=
  [ ("type", false, TRef "T" []);
    ("public", true, TKeyword KBoolean);
    ("defaultValue", true, TRef "DefaultValueType" [TRef "T" []]);
    ("nullable", true, TKeyword KBoolean);
    ("validate", true,
       TFunction [("value", TRef "DefaultValueType" [TRef "T" []])]
         (TUnion [ TKeyword KString;
                   TArray (TRef "LocalizedString" []);
                   TKeyword KVoid ])) ].

Definition TypedCustomFieldConfig : Decl :=
  TypeAlias "TypedCustomFieldConfig"
    [("T", TRef "CustomFieldType" []); ("C", TRef "CustomField" [])]
    (TIntersection [ TRef "Omit" [TRef "C" []; TLiteral "__typename"];
                     TObject typed_members ]).

(** The six per-type configurations. *)
Definition per_type (alias t graphql : string) : Decl :=
  TypeAlias alias [] (TRef "TypedCustomFieldConfig" [TLiteral t; TRef graphql []]).

Definition StringCustomFieldConfig : Decl :=
  per_type "StringCustomFieldConfig" "string" "GraphQLStringCustomFieldConfig".
Definition LocaleStringCustomFieldConfig : Decl :=
  per_type "LocaleStringCustomFieldConfig" "localeString"
    "GraphQLLocaleStringCustomFieldConfig".
Definition IntCustomFieldConfig : Decl :=
  per_type "IntCustomFieldConfig" "int" "GraphQLIntCustomFieldConfig".
Definition FloatCustomFieldConfig : Decl :=
  per_type "FloatCustomFieldConfig" "float" "GraphQLFloatCustomFieldConfig".
Definition BooleanCustomFieldConfig : Decl :=
  per_type "BooleanCustomFieldConfig" "boolean" "GraphQLBooleanCustomFieldConfig".
Definition DateTimeCustomFieldConfig : Decl :=
  per_type "DateTimeCustomFieldConfig" "datetime" "GraphQLDateTimeCustomFieldConfig".

Definition CustomFieldConfig : Decl :=
  TypeAlias "CustomFieldConfig" []
    (TUnion [ TRef "StringCustomFieldConfig" [];
              TRef "LocaleStringCustomFieldConfig" [];
              TRef "IntCustomFieldConfig" [];
              TRef "FloatCustomFieldConfig" [];
              TRef "BooleanCustomFieldConfig" [];
              TRef "DateTimeCustomFieldConfig" [] ]).

Definition config_array : TsType := TArray (TRef "CustomFieldConfig" []).

Definition CustomFields : Decl :=
  Interface "CustomFields" []
    [ Property "Address" true config_array;
      Property "Collection" true config_array;
      Property "Customer" true config_array;
      Property "Facet" true config_array;
      Property "FacetValue" true config_array;
      Property "GlobalSettings" true config_array;
      Property "OrderLine" true config_array;
      Property "Product" true config_array;
      Property "ProductOption" true config_array;
      Property "ProductOptionGroup" true config_array;
      Property "ProductVariant" true config_array;
      Property "User" true config_array ].

Definition HasCustomFields : Decl :=
  Interface "HasCustomFields" []
    [ Property "customFields" false (TRef "CustomFieldsObject" []) ].

Definition declarations : list Decl :=
  [ CustomFieldType; DefaultValueType_decl; TypedCustomFieldConfig;
    StringCustomFieldConfig; LocaleStringCustomFieldConfig;
    IntCustomFieldConfig; FloatCustomFieldConfig; BooleanCustomFieldConfig;
    DateTimeCustomFieldConfig; CustomFieldConfig; CustomFields;
    HasCustomFields ].

(** The field type a per-type configuration fixes: the first type argument
    of its [TypedCustomFieldConfig<'t', ...>]. *)
Definition field_type_of_alias (alias : string) (ds : list Decl) : option string :=
  match alias_body alias ds with
  | Some (TRef "TypedCustomFieldConfig" [TLiteral t; _]) => Some t
  | _ => None
  end.

(** The field types of the members of the [CustomFieldConfig] union. *)
Definition config_field_types (ds : list Decl) : list (option string) :=
  match alias_body "CustomFieldConfig" ds with
  | Some t => (fun a => field_type_of_alias a ds) <$> ref_names t
  | None => []
  end.

(** The members of [TypedCustomFieldConfig<'t', C>] with the type parameter
    instantiated: [T] becomes ['t'] and [DefaultValueType<T>] its resolution. *)
Definition instantiate_leaf (t : string) (ty : TsType) : TsType :=
  match ty with
  | TRef "T" [] => TLiteral t
  | TRef "DefaultValueType" [TRef "T" []] => DefaultValueType t
  | _ => ty
  end.

Definition instantiate (t : string) (ty : TsType) : TsType :=
  match ty with
  | TFunction ps r =>
      TFunction ((fun p => (p.1, instantiate_leaf t p.2)) <$> ps)
        (instantiate_leaf t r)
  | _ => instantiate_leaf t ty
  end.

Definition typed_config (t : string) : list (string * bool * TsType) :=
  (fun m => (m.1.1, m.1.2, instantiate t m.2)) <$> typed_members.

Definition member_type (n : string) (ms : list (string * bool * TsType))
  : option (bool * TsType) :=
  (fun m => (m.1.2, m.2)) <$> List.find (fun m => String.eqb m.1.1 n) ms.

(** The value type of a custom field type is [string]. *)
Definition string_valued (t : string) : bool :=
  match DefaultValueType t with
  | TKeyword KString => true
  | _ => false
  end.

End CustomFieldTypes.

(* ===================================================================== *)
(** * Programs over calls to the environment *)
(* ===================================================================== *)

Module Prog.
(** A program returns a value, or makes a call [e : E X] to its environment
    and continues with the answer. *)
Inductive Prog (E : Type -> Type) (R : Type) : Type :=
| Ret (r : R)
| Vis (X : Type) (e : E X) (k : X -> Prog E R).

Arguments Ret {E R} r.
Arguments Vis {E R X} e k.

Fixpoint bind {E : Type -> Type} {R S : Type}
  (p : Prog E R) (f : R -> Prog E S) : Prog E S :=
  match p with
  | Ret r => f r
  | Vis e k => Vis e (fun x => bind (k x) f)
  end.

Definition trigger {E : Type -> Type} {X : Type} (e : E X) : Prog E X :=
  Vis e Ret.

(** [for (const x of xs) body(x)] *)
Fixpoint for_of {E : Type -> Type} {A : Type}
  (xs : list A) (body : A -> Prog E unit) : Prog E unit :=
  match xs with
  | [] => Ret tt
  | x :: rest => bind (body x) (fun _ => for_of rest body)
  end.

(** Running a program against an implementation [h] of the calls, threading
    the state [W] of the environment. *)
Fixpoint run {E : Type -> Type} {R W : Type}
  (h : forall X, E X -> W -> X * W) (p : Prog E R) (w : W) : R * W :=
  match p with
  | Ret r => (r, w)
  | Vis e k => let xw := h _ e w in run h (k xw.1) xw.2
  end.

(** The number of calls a run makes. *)
Fixpoint calls {E : Type -> Type} {R W : Type}
  (h : forall X, E X -> W -> X * W) (p : Prog E R) (w : W) : nat :=
  match p with
  | Ret _ => 0
  | Vis e k => let xw := h _ e w in S (calls h (k xw.1) xw.2)
  end.

#[global] Instance prog_ret (E : Type -> Type) : MRet (Prog E) :=
  fun _ r => Ret r.
#[global] Instance prog_bind (E : Type -> Type) : MBind (Prog E) :=
  fun _ _ f p => bind p f.
End Prog.

(* ===================================================================== *)
(** * JavaScript values and objects *)
(* ===================================================================== *)

Module Js.
(** Values as far as the code distinguishes them: the two nullish values,
    primitives, and references to objects, arrays, functions and classes. *)
Inductive JsValue : Type :=
| JUndefined
| JNull
| JBool (b : bool)
| JNum (n : Z)
| JStr (s : string)
| JRef (addr : positive).

#[global] Instance JsValue_eq_dec : EqDecision JsValue.
Proof. solve_decision. Defined.

(** [o[k]]: a property that is absent reads as [undefined]. *)
Definition get (o : gmap string JsValue) (k : string) : JsValue :=
  default JUndefined (o !! k).

(** [v != null] (loose inequality: false exactly on [null] and [undefined]). *)
Definition ne_null (v : JsValue) : bool :=
  match v with
  | JUndefined | JNull => false
  | _ => true
  end.

(** [Object.values(o)] of an object literal, in insertion order. *)
Definition Object_values {A : Type} (o : list (string * A)) : list A := o.*2.

(** Truthiness of an optional string argument ([signal?: string]): absent
    and the empty string are falsy. *)
Definition truthy (s : option string) : bool :=
  match s with
  | Some (String _ _) => true
  | Some EmptyString | None => false
  end.

(** Modelled from the spec: the helper [pick] of [@vendure/common/lib/pick],
    whose source is not part of the fragment and which the spec does not
    describe; modelled as the helper behaves at its one call site.
    [pick(input, props)] starts from an empty object and assigns
    [output[prop] = input[prop]] for every [prop] of [props], in order: each
    listed key becomes an own property of the result, and a listed key that the
    input lacks holds [undefined]. *)
Definition pick (input : gmap string JsValue) (props : list string)
  : gmap string JsValue :=
  foldl (fun output prop => <[prop := get input prop]> output) ∅ props.

End Js.

(* ===================================================================== *)
(** * The [VendurePlugin] decorator *)
(* ===================================================================== *)

Module Plugin.
Import Prog Js.

(** The calls the decorator makes: [Reflect.defineMetadata(key, value,
    target)] and the Nest decorator [Module(metadata)(target)].  Classes are
    identified by reference. *)
Inductive PluginE : Type -> Type :=
| Reflect_defineMetadata (metadataKey : string) (metadataValue : JsValue)
    (target : positive) : PluginE unit
| NestModule (metadata : gmap string JsValue) (target : positive) : PluginE unit.

(** The body of the [for ... of] loop over the values of [PLUGIN_METADATA]. *)
Definition body (pluginMetadata : gmap string JsValue) (target : positive)
  (property : string) : Prog PluginE unit :=
  if ne_null (get pluginMetadata property)
  then trigger (Reflect_defineMetadata property (get pluginMetadata property) target)
  else mret tt.

Section VendurePlugin.
(** The constant tables [PLUGIN_METADATA] (of [./plugin-metadata]) and
    [METADATA] (of [@nestjs/common/constants]), as object literals. *)
Variable PLUGIN_METADATA : list (string * string).
Variable METADATA : list (string * string).

(** The argument handed to [Module]. *)
Definition nestModuleMetadata (pluginMetadata : gmap string JsValue)
  : gmap string JsValue :=
  pick pluginMetadata (Object_values METADATA).

(** The decorator returned by [VendurePlugin(pluginMetadata)], applied to
    [target]. *)
Definition VendurePlugin (pluginMetadata : gmap string JsValue)
  (target : positive) : Prog PluginE unit :=
  for_of (Object_values PLUGIN_METADATA) (body pluginMetadata target) ;;
  trigger (NestModule (nestModuleMetadata pluginMetadata) target).
End VendurePlugin.

(** ** Environments *)

(** The sequence of calls made, oldest first. *)
Definition log_handler (X : Type) (e : PluginE X) (w : list (PluginE unit))
  : X * list (PluginE unit) :=
  match e in PluginE X return X * list (PluginE unit) with
  | Reflect_defineMetadata k v t => (tt, (w ++ [Reflect_defineMetadata k v t])%list)
  | NestModule m t => (tt, (w ++ [NestModule m t])%list)
  end.

Definition trace {R : Type} (p : Prog PluginE R) : list (PluginE unit) :=
  (run log_handler p []).2.

(** The arguments of the [Module] calls in a trace. *)
Definition module_calls (tr : list (PluginE unit))
  : list (gmap string JsValue * positive) :=
  omap (fun e => match e with
                 | NestModule m t => Some (m, t)
                 | Reflect_defineMetadata _ _ _ => None
                 end) tr.

(** The metadata store of [reflect-metadata]: own metadata of a class under
    a key.  [Module] is the framework's and is left open: [nest] is any
    transformer of the store and of the framework's own state [N]. *)
Abbreviation Store := (gmap (positive * string) JsValue).

Definition store_handler {N : Type}
  (nest : gmap string JsValue -> positive -> Store * N -> Store * N)
  (X : Type) (e : PluginE X) (w : Store * N) : X * (Store * N) :=
  match e in PluginE X return X * (Store * N) with
  | Reflect_defineMetadata k v t => (tt, (<[(t, k) := v]> w.1, w.2))
  | NestModule m t => (tt, nest m t w)
  end.

(** The store once the entries of [pluginMetadata] under [keys] that are not
    nullish have been defined on [target]. *)
Definition define_all (pluginMetadata : gmap string JsValue) (target : positive)
  (keys : list string) (s : Store) : Store :=
  foldl (fun s k => if ne_null (get pluginMetadata k)
                    then <[(target, k) := get pluginMetadata k]> s
                    else s) s keys.

(** ** Sample tables and inputs *)

(** A [PLUGIN_METADATA] table with one entry for each property that
    [VendurePluginMetadata] adds to [ModuleMetadata]. *)
Definition sample_PLUGIN_METADATA : list (string * string) :=
  [ ("CONFIGURATION", "configuration");
    ("SHOP_API_EXTENSIONS", "shopApiExtensions");
    ("ADMIN_API_EXTENSIONS", "adminApiExtensions");
    ("WORKERS", "workers");
    ("ENTITIES", "entities") ].

(** A [METADATA] table with the four properties that the documentation of
    [VendurePluginMetadata] lists for [ModuleMetadata]. *)
Definition sample_METADATA : list (string * string) :=
  [ ("IMPORTS", "imports"); ("PROVIDERS", "providers");
    ("CONTROLLERS", "controllers"); ("EXPORTS", "exports") ].

(** [{ imports: [...], controllers: [...], workers: [...], entities: null }] *)
Definition sample_metadata : gmap string JsValue :=
  <["imports" := JRef 10]> (<["controllers" := JRef 11]>
    (<["workers" := JRef 12]> (<["entities" := JNull]> ∅))).

(** The same plugin with other Vendure-specific properties. *)
Definition sample_metadata' : gmap string JsValue :=
  <["imports" := JRef 10]> (<["controllers" := JRef 11]>
    (<["configuration" := JRef 13]> ∅)).

End Plugin.

(* ===================================================================== *)
(** * [WorkerModule] *)
(* ===================================================================== *)

Module Worker.
Import Prog Js.

(** The calls the module makes: [waitForOpenTasksToComplete()] on a
    [WorkerMonitor] instance, and the static [Logger.info(message)]. *)
Inductive WorkerE : Type -> Type :=
| WorkerMonitor_waitForOpenTasksToComplete (monitor : positive) : WorkerE JsValue
| Logger_info (message : string) : WorkerE unit.

(** An instance: its one field, the injected monitor. *)
Record WorkerModule : Type := { monitor : positive }.

Definition onModuleDestroy (this : WorkerModule) : Prog WorkerE JsValue :=
  r ← trigger (WorkerMonitor_waitForOpenTasksToComplete (monitor this));
  mret r.

(** ['Worker Received shutdown signal:' + signal] *)
Definition shutdown_message (signal : string) : string :=
  "Worker Received shutdown signal:" ++ signal.

Definition onApplicationShutdown (this : WorkerModule) (signal : option string)
  : Prog WorkerE unit :=
  if truthy signal
  then trigger (Logger_info (shutdown_message (default "" signal)))
  else mret tt.

(** Specification side of the delegation: the single call to the monitor,
    and nothing else. *)
Definition delegate_to_monitor (this : WorkerModule) : Prog WorkerE JsValue :=
  Vis (WorkerMonitor_waitForOpenTasksToComplete (monitor this)) Ret.

(** ** Environments *)

(** The state around a worker: the instance's fields, the state [M] of the
    monitors and the state [L] of the logger. *)
Record World (M L : Type) : Type := mkWorld {
  this_fields : WorkerModule;
  monitors : M;
  logger : L
}.
Arguments mkWorld {M L} _ _ _.
Arguments this_fields {M L} _.
Arguments monitors {M L} _.
Arguments logger {M L} _.

(** An environment is an implementation of the monitor and of the logger. *)
Definition handler {M L : Type}
  (wait : positive -> M -> JsValue * M) (info : string -> L -> L)
  (X : Type) (e : WorkerE X) (w : World M L) : X * World M L :=
  match e in WorkerE X return X * World M L with
  | WorkerMonitor_waitForOpenTasksToComplete m =>
      let r := wait m (monitors w) in
      (r.1, mkWorld (this_fields w) r.2 (logger w))
  | Logger_info msg =>
      (tt, mkWorld (this_fields w) (monitors w) (info msg (logger w)))
  end.

(** The logger that records the messages, oldest first. *)
Definition record_info (msg : string) (l : list string) : list string :=
  (l ++ [msg])%list.

(** [s] occurs in [m]. *)
Definition contains (m s : string) : Prop :=
  exists pre post : string, m = pre ++ s ++ post.

End Worker.

(* ===================================================================== *)
(** * Checks over a schema document *)
(* ===================================================================== *)

Module SchemaChecks.
Import JobSchema.

(** The named type at the core of a type reference. *)
Fixpoint named_type (t : GqlType) : string :=
  match t with
  | Named n => n
  | ListOf u | NonNull u => named_type u
  end.

Inductive Kind : Type := KObject | KEnum | KInputObject.

Definition def_name (d : TypeDef) : string :=
  match d with
  | ObjectType n _ | EnumType n _ | InputObjectType n _ => n
  end.

Definition def_kind (d : TypeDef) : Kind :=
  match d with
  | ObjectType _ _ => KObject
  | EnumType _ _ => KEnum
  | InputObjectType _ _ => KInputObject
  end.

Definition defined_names (s : list TypeDef) : list string := def_name <$> s.

(** The kind of the definition of [n], if the document defines it. *)
Definition kind_of (n : string) (s : list TypeDef) : option Kind :=
  def_kind <$> List.find (fun d => String.eqb (def_name d) n) s.

(** Type names in output position: the types of the fields of object types. *)
Definition output_refs (s : list TypeDef) : list string :=
  d ← s; match d with
         | ObjectType _ fs => (fun f => named_type (field_type f)) <$> fs
         | _ => []
         end.

(** Type names in input position: the types of field arguments and of the
    fields of input objects. *)
Definition input_refs (s : list TypeDef) : list string :=
  d ← s; match d with
         | ObjectType _ fs =>
             f ← fs; (fun a => named_type (input_type a)) <$> field_args f
         | InputObjectType _ fs => (fun a => named_type (input_type a)) <$> fs
         | EnumType _ _ => []
         end.

(** Names the document refers to and does not define, each once. *)
Definition undefined_refs (s : list TypeDef) : list string :=
  remove_dups (filter (fun n => n ∉ defined_names s) (output_refs s ++ input_refs s)%list).

(** The scalars every GraphQL service defines. *)
Definition builtin_scalars : list string :=
  ["Int"; "Float"; "String"; "Boolean"; "ID"].

(** The names of the members of a definition: field names, enum members. *)
Definition member_names (d : TypeDef) : list string :=
  match d with
  | ObjectType _ fs => field_name <$> fs
  | EnumType _ ms => ms
  | InputObjectType _ fs => input_name <$> fs
  end.

(** The argument names of each field of each object type. *)
Definition argument_names (s : list TypeDef) : list (list string) :=
  d ← s; match d with
         | ObjectType _ fs => (fun f => input_name <$> field_args f) <$> fs
         | _ => []
         end.

End SchemaChecks.

(* ===================================================================== *)
(** * The declaration of [WorkerModule] *)
(* ===================================================================== *)

Module WorkerDecl.

(** An entry of [imports]: a module class, or the dynamic module returned by
    a static method ([ServiceModule.forWorker()]). *)
Inductive ImportRef : Type :=
| ImportClass (name : string)
| ImportCall (name method : string).

(** An entry of [providers]: a class, or [{ provide, useClass }]. *)
Inductive Provider : Type :=
| ProvideClass (cls : string)
| ProvideUseClass (provide useClass : string).

Inductive MetadataValue : Type :=
| Imports (l : list ImportRef)
| Providers (l : list Provider).

(** The object literal passed to [@Module], property by property. *)
Definition module_metadata : list (string * MetadataValue) :=
  [ ("imports", Imports [ ImportClass "ConfigModule";
                          ImportCall "ServiceModule" "forWorker";
                          ImportCall "PluginModule" "forWorker" ]);
    ("providers", Providers [ ProvideClass "WorkerMonitor";
                              ProvideUseClass "APP_INTERCEPTOR" "MessageInterceptor" ]) ].

(** [class WorkerModule implements OnModuleDestroy, OnApplicationShutdown] *)
Definition implements : list string := ["OnModuleDestroy"; "OnApplicationShutdown"].

(** Constructor parameters, [(name, class)]. *)
Definition constructor_params : list (string * string) := [("monitor", "WorkerMonitor")].

(** Methods, [(name, parameters as (name, optional?))]. *)
Definition class_methods : list (string * list (string * bool)) :=
  [ ("onModuleDestroy", []); ("onApplicationShutdown", [("signal", true)]) ].

(** The classes the module itself can inject under their own token. *)
Definition provided_classes (md : list (string * MetadataValue)) : list string :=
  p ← md; match p.2 with
          | Providers l =>
              omap (fun x => match x with
                             | ProvideClass c => Some c
                             | ProvideUseClass _ _ => None
                             end) l
          | Imports _ => []
          end.

(** Lower-case the first letter: the method an [OnX] interface asks for is
    [onX]. *)
Definition uncapitalize (s : string) : string :=
  match s with
  | String c rest =>
      let n := Ascii.nat_of_ascii c in
      String (if (65 <=? n)%nat && (n <=? 90)%nat
              then Ascii.ascii_of_nat (n + 32) else c) rest
  | EmptyString => EmptyString
  end.

End WorkerDecl.

(* ===================================================================== *)
(** * Branches of [DefaultValueType] *)
(* ===================================================================== *)

Module CustomFieldChecks.
Import TS.

Definition is_never (t : TsType) : bool :=
  match t with
  | TKeyword KNever => true
  | _ => false
  end.

(** The literals that the branches of a chain of conditional types on the
    parameter [p] test, in order. *)
Fixpoint tested_literals (p : string) (t : TsType) : list string :=
  match t with
  | TConditional (TRef q []) e _ b =>
      if String.eqb q p then (literals e ++ tested_literals p b)%list else []
  | _ => []
  end.

End CustomFieldChecks.

(* ===================================================================== *)
(** * Runs of the decorator against a metadata store *)
(* ===================================================================== *)

Module PluginRuns.
Import Prog Js Plugin.

(** The class a call is addressed to. *)
Definition call_target (e : PluginE unit) : positive :=
  match e with
  | Reflect_defineMetadata _ _ t => t
  | NestModule _ t => t
  end.

(** The [Reflect.defineMetadata] calls in a trace. *)
Definition define_calls (tr : list (PluginE unit))
  : list (string * JsValue * positive) :=
  omap (fun e => match e with
                 | Reflect_defineMetadata k v t => Some (k, v, t)
                 | NestModule _ _ => None
                 end) tr.

Section Decorate.
Context {N : Type}.
Variable PLUGIN_METADATA : list (string * string).
Variable METADATA : list (string * string).
Variable nest : gmap string JsValue -> positive -> Store * N -> Store * N.

(** The state after [VendurePlugin(pluginMetadata)(target)]. *)
Definition decorate (pluginMetadata : gmap string JsValue) (target : positive)
  (w : Store * N) : Store * N :=
  (run (store_handler nest)
     (VendurePlugin PLUGIN_METADATA METADATA pluginMetadata target) w).2.

(** [Module(m)] leaves the entries under [keys] as they are, on every class. *)
Definition preserves (keys : list string) (m : gmap string JsValue) : Prop :=
  forall (t : positive) (w : Store * N) (t' : positive) (k' : string),
    k' ∈ keys -> (nest m t w).1 !! (t', k') = w.1 !! (t', k').
End Decorate.

(** A sample implementation of [Module]: it defines every property of its
    argument as own metadata of the target, and keeps no state of its own. *)
Definition define_properties (m : gmap string JsValue) (t : positive)
  (w : Store * unit) : Store * unit :=
  (map_fold (fun k v s => <[(t, k) := v]> s) w.1 m, w.2).

End PluginRuns.

(* ===================================================================== *)
(** * Properties of the job schema *)
(* ===================================================================== *)

Section JobSchemaFacts.
Import JobSchema.

(** C1.  The schema has exactly two query fields, [job(jobId: String!)] and
    [jobs(input: JobListInput)]; besides the root [Query], exactly one object
    type, [JobInfo], whose fields are [id], [name], [state], [progress],
    [result], [started], [ended], [duration] in that order; and the enum
    [JobState] with members [PENDING], [RUNNING], [COMPLETED], [FAILED] in
    that order.  The argument [jobId] is required (non-null), the argument
    [input] is optional (nullable). *)
Theorem job_schema_shape :
  map signature (fields_of "Query" schema)
    = [ ("job", [("jobId", NonNull (Named "String"))]);
        ("jobs", [("input", Named "JobListInput")]) ]
  /\ nullable (NonNull (Named "String")) = false
  /\ nullable (Named "JobListInput") = true
  /\ length (object_fields "Query" schema) = 1
  /\ map (fun o => (o.1, map field_name o.2)) (object_types schema)
    = [ ("JobInfo", [ "id"; "name"; "state"; "progress";
                      "result"; "started"; "ended"; "duration" ]) ]
  /\ enum_types schema
    = [ ("JobState", ["PENDING"; "RUNNING"; "COMPLETED"; "FAILED"]) ].
Proof. repeat split; reflexivity. Qed.

(** C9.  [Query.job] has the nullable type [JobInfo]; [Query.jobs] has the
    type [[JobInfo!]!], a non-null list of non-null [JobInfo]; in [JobInfo]
    the nullable fields are exactly [result], [started], [ended], [duration]
    and the non-null ones exactly [id], [name], [state], [progress]; the
    fields of [JobListInput] are [state] and [ids], both nullable. *)
Theorem job_schema_nullability :
  field_type_of "Query" "job" schema = Some (Named "JobInfo")
  /\ nullable (Named "JobInfo") = true
  /\ field_type_of "Query" "jobs" schema
     = Some (NonNull (ListOf (NonNull (Named "JobInfo"))))
  /\ nullable_fields (fields_of "JobInfo" schema)
     = ["result"; "started"; "ended"; "duration"]
  /\ non_null_fields (fields_of "JobInfo" schema)
     = ["id"; "name"; "state"; "progress"]
  /\ map (map (fun a => (input_name a, nullable (input_type a))))
       (input_fields "JobListInput" schema)
     = [ [("state", true); ("ids", true)] ].
Proof. repeat split; reflexivity. Qed.

End JobSchemaFacts.

(* ===================================================================== *)
(** * Properties of the declared types *)
(* ===================================================================== *)

Section PluginTypeFacts.
Import TS PluginTypes.

(** C3.  [VendurePluginMetadata] extends [ModuleMetadata] and adds exactly
    five properties, all optional: [configuration : PluginConfigurationFn],
    [shopApiExtensions] and [adminApiExtensions : APIExtensionDefinition],
    [workers] and [entities : Array<Type<any>>].  [APIExtensionDefinition]
    has an optional [schema : DocumentNode] and a required [resolvers :
    Array<Type<any>>]; [PluginConfigurationFn] takes a
    [Required<VendureConfig>] and returns one, or a promise of one. *)
Theorem plugin_metadata_surface :
  interface_extends "VendurePluginMetadata" declarations
    = [TRef "ModuleMetadata" []]
  /\ interface_members "VendurePluginMetadata" declarations
    = [ Property "configuration" true (TRef "PluginConfigurationFn" []);
        Property "shopApiExtensions" true (TRef "APIExtensionDefinition" []);
        Property "adminApiExtensions" true (TRef "APIExtensionDefinition" []);
        Property "workers" true (TRef "Array" [TRef "Type" [TKeyword KAny]]);
        Property "entities" true (TRef "Array" [TRef "Type" [TKeyword KAny]]) ]
  /\ vendure_specific_keys
    = [ "configuration"; "shopApiExtensions"; "adminApiExtensions";
        "workers"; "entities" ]
  /\ interface_members "APIExtensionDefinition" declarations
    = [ Property "schema" true (TRef "DocumentNode" []);
        Property "resolvers" false (TRef "Array" [TRef "Type" [TKeyword KAny]]) ]
  /\ alias_body "PluginConfigurationFn" declarations
    = Some (TFunction [("config", TRef "Required" [TRef "VendureConfig" []])]
              (TUnion [ TRef "Required" [TRef "VendureConfig" []];
                        TRef "Promise" [TRef "Required" [TRef "VendureConfig" []]] ])).
Proof. repeat split; reflexivity. Qed.

(** C5.  The hooks of [PluginLifecycleMethods] are exactly four, one per
    interface: [OnVendureBootstrap.onVendureBootstrap],
    [OnVendureWorkerBootstrap.onVendureWorkerBootstrap],
    [OnVendureClose.onVendureClose] and
    [OnVendureWorkerClose.onVendureWorkerClose]; each takes no argument and
    returns [void | Promise<void>]; the file declares no other method; and
    [PluginLifecycleMethods] is the intersection of the four interfaces. *)
Theorem lifecycle_surface :
  lifecycle_hooks declarations
    = map (fun h => (h.1, h.2, [], TUnion [TKeyword KVoid; TRef "Promise" [TKeyword KVoid]]))
        [ ("OnVendureBootstrap", "onVendureBootstrap");
          ("OnVendureWorkerBootstrap", "onVendureWorkerBootstrap");
          ("OnVendureClose", "onVendureClose");
          ("OnVendureWorkerClose", "onVendureWorkerClose") ]
  /\ all_hooks declarations = lifecycle_hooks declarations
  /\ Forall (fun i => length (interface_members i declarations) = 1)
       [ "OnVendureBootstrap"; "OnVendureWorkerBootstrap";
         "OnVendureClose"; "OnVendureWorkerClose" ]
  /\ alias_body "PluginLifecycleMethods" declarations
    = Some (TIntersection [ TRef "OnVendureBootstrap" [];
                            TRef "OnVendureWorkerBootstrap" [];
                            TRef "OnVendureClose" [];
                            TRef "OnVendureWorkerClose" [] ]).
Proof. repeat split; try reflexivity. repeat constructor. Qed.

End PluginTypeFacts.

Section CustomFieldTypeFacts.
Import TS CustomFieldTypes.

(** C4.  [CustomFieldType] is the union of exactly the six literals
    ['string'], ['localeString'], ['int'], ['float'], ['boolean'] and
    ['datetime']; [DefaultValueType] maps ['string'] and ['localeString'] to
    [string], ['int'] and ['float'] to [number], ['boolean'] to [boolean]
    and ['datetime'] to [Date]; ['localeString'] is the one type besides
    ['string'] whose values are strings; and for each of the six types [t],
    [TypedCustomFieldConfig<t, C>] has the required member [type : t], an
    optional [defaultValue] of type [DefaultValueType<t>] and an optional
    [validate] taking a value of type [DefaultValueType<t>]. *)
Theorem custom_field_typing :
  custom_field_types
    = ["string"; "localeString"; "int"; "float"; "boolean"; "datetime"]
  /\ map DefaultValueType custom_field_types
    = [ TKeyword KString; TKeyword KString; TKeyword KNumber; TKeyword KNumber;
        TKeyword KBoolean; TRef "Date" [] ]
  /\ filter (fun t => string_valued t = true) custom_field_types
    = ["string"; "localeString"]
  /\ Forall (fun t =>
       member_type "type" (typed_config t) = Some (false, TLiteral t)
       /\ member_type "defaultValue" (typed_config t)
          = Some (true, DefaultValueType t)
       /\ member_type "validate" (typed_config t)
          = Some (true,
                  TFunction [("value", DefaultValueType t)]
                    (TUnion [ TKeyword KString;
                              TArray (TRef "LocalizedString" []);
                              TKeyword KVoid ])))
     custom_field_types
  /\ config_field_types declarations = map Some custom_field_types.
Proof.
  repeat split; try reflexivity.
  repeat (constructor; [repeat split; reflexivity|]). constructor.
Qed.

(** C7.  [CustomFields] has exactly the twelve keys [Address], [Collection],
    [Customer], [Facet], [FacetValue], [GlobalSettings], [OrderLine],
    [Product], [ProductOption], [ProductOptionGroup], [ProductVariant] and
    [User], each an optional property of type [CustomFieldConfig[]];
    [CustomFieldConfig] is the union of the six per-type configurations, one
    for each of ['string'], ['localeString'], ['int'], ['float'],
    ['boolean'], ['datetime']. *)
Theorem custom_fields_surface :
  interface_members "CustomFields" declarations
    = map (fun k => Property k true (TArray (TRef "CustomFieldConfig" [])))
        [ "Address"; "Collection"; "Customer"; "Facet"; "FacetValue";
          "GlobalSettings"; "OrderLine"; "Product"; "ProductOption";
          "ProductOptionGroup"; "ProductVariant"; "User" ]
  /\ length (interface_members "CustomFields" declarations) = 12
  /\ interface_extends "CustomFields" declarations = []
  /\ alias_body "CustomFieldConfig" declarations
    = Some (TUnion [ TRef "StringCustomFieldConfig" [];
                     TRef "LocaleStringCustomFieldConfig" [];
                     TRef "IntCustomFieldConfig" [];
                     TRef "FloatCustomFieldConfig" [];
                     TRef "BooleanCustomFieldConfig" [];
                     TRef "DateTimeCustomFieldConfig" [] ])
  /\ config_field_types declarations
    = [ Some "string"; Some "localeString"; Some "int"; Some "float";
        Some "boolean"; Some "datetime" ].
Proof. repeat split; reflexivity. Qed.

End CustomFieldTypeFacts.

(* ===================================================================== *)
(** * Running programs *)
(* ===================================================================== *)

Section ProgFacts.
Import Prog.
Context {E : Type -> Type} {W : Type} (h : forall X, E X -> W -> X * W).

Lemma run_bind {R S : Type} (p : Prog E R) (f : R -> Prog E S) (w : W) :
  run h (bind p f) w = run h (f (run h p w).1) (run h p w).2.
Proof.
  revert w. induction p as [r | X e k IH]; intros w; simpl.
  - reflexivity.
  - apply IH.
Qed.

Lemma run_seq {R S : Type} (p : Prog E R) (q : Prog E S) (w : W) :
  run h (p ;; q) w = run h q (run h p w).2.
Proof. apply (run_bind p (fun _ => q)). Qed.

End ProgFacts.

(* ===================================================================== *)
(** * Properties of [pick] and of the decorator *)
(* ===================================================================== *)

Section PickFacts.
Import Js.

Lemma pick_loop_lookup (input output : gmap string JsValue)
  (props : list string) (k : string) :
  foldl (fun output prop => <[prop := get input prop]> output) output props !! k
  = if bool_decide (k ∈ props) then Some (get input k) else output !! k.
Proof.
  revert output. induction props as [|a props IH]; intros output.
  - rewrite bool_decide_eq_false_2; [reflexivity|].
    intros H. by apply elem_of_nil in H.
  - cbn [foldl]. rewrite IH. clear IH.
    destruct (decide (k ∈ props)) as [Hin | Hout].
    + rewrite (bool_decide_eq_true_2 _ Hin).
      rewrite bool_decide_eq_true_2; [reflexivity|].
      apply elem_of_cons. right. exact Hin.
    + rewrite (bool_decide_eq_false_2 _ Hout).
      destruct (decide (k = a)) as [-> | Hne].
      * rewrite lookup_insert_eq.
        rewrite bool_decide_eq_true_2; [reflexivity|].
        apply elem_of_cons. left. reflexivity.
      * rewrite lookup_insert_ne by congruence.
        rewrite bool_decide_eq_false_2; [reflexivity|].
        intros H. apply elem_of_cons in H as [-> | H]; tauto.
Qed.

Lemma pick_lookup (input : gmap string JsValue) (props : list string) (k : string) :
  pick input props !! k
  = if bool_decide (k ∈ props) then Some (get input k) else None.
Proof. unfold pick. rewrite pick_loop_lookup. by rewrite lookup_empty. Qed.

Lemma pick_get (input : gmap string JsValue) (props : list string) (k : string) :
  get (pick input props) k
  = if bool_decide (k ∈ props) then get input k else JUndefined.
Proof. unfold get at 1. rewrite pick_lookup. by case_bool_decide. Qed.

End PickFacts.

Section PluginFacts.
Import Prog Js Plugin.
Variable PLUGIN_METADATA : list (string * string).
Variable METADATA : list (string * string).

Lemma define_all_lookup (pm : gmap string JsValue) (target : positive)
  (keys : list string) (s : Store) (t : positive) (k : string) :
  define_all pm target keys s !! (t, k)
  = if bool_decide (t = target /\ k ∈ keys) && ne_null (get pm k)
    then Some (get pm k)
    else s !! (t, k).
Proof.
  revert s. induction keys as [|a keys IH]; intros s.
  - simpl. case_bool_decide as H; [|done].
    destruct H as [_ H]. by apply elem_of_nil in H.
  - change (define_all pm target (a :: keys) s)
      with (define_all pm target keys
              (if ne_null (get pm a) then <[(target, a) := get pm a]> s else s)).
    rewrite IH. clear IH.
    destruct (ne_null (get pm k)) eqn:Hk.
    + rewrite !andb_true_r.
      destruct (decide (t = target /\ k ∈ keys)) as [Hin | Hout].
      * assert (Hin' : t = target /\ k ∈ a :: keys).
        { destruct Hin as [-> Hin]. split; [done | apply elem_of_cons; by right]. }
        by rewrite (bool_decide_eq_true_2 _ Hin), (bool_decide_eq_true_2 _ Hin').
      * rewrite (bool_decide_eq_false_2 _ Hout).
        destruct (decide (t = target /\ k = a)) as [[-> ->] | Hne].
        -- rewrite bool_decide_eq_true_2
             by (split; [done | apply elem_of_cons; by left]).
           rewrite Hk. by rewrite lookup_insert_eq.
        -- assert (Hnot : ~ (t = target /\ k ∈ a :: keys)).
           { intros [-> Hin]. apply elem_of_cons in Hin as [-> | Hin]; tauto. }
           rewrite (bool_decide_eq_false_2 _ Hnot).
           destruct (ne_null (get pm a)); [|done].
           rewrite lookup_insert_ne; [done|]. intros [= -> ->]. tauto.
    + rewrite !andb_false_r.
      destruct (ne_null (get pm a)) eqn:Ha; [|done].
      rewrite lookup_insert_ne; [done|]. intros [= -> ->]. congruence.
Qed.

Lemma run_store_loop {N : Type}
  (nest : gmap string JsValue -> positive -> Store * N -> Store * N)
  (pm : gmap string JsValue) (target : positive) (keys : list string)
  (w : Store * N) :
  run (store_handler nest) (for_of keys (body pm target)) w
  = (tt, (define_all pm target keys w.1, w.2)).
Proof.
  revert w. induction keys as [|a keys IH]; intros [s n].
  - reflexivity.
  - simpl for_of. rewrite run_bind, IH. unfold body, define_all. simpl.
    destruct (ne_null (get pm a)); reflexivity.
Qed.

Lemma run_log_loop (pm : gmap string JsValue) (target : positive)
  (keys : list string) (w : list (PluginE unit)) :
  run log_handler (for_of keys (body pm target)) w
  = (tt, (w ++ map (fun k => Reflect_defineMetadata k (get pm k) target)
                   (filter (fun k => ne_null (get pm k) = true) keys))%list).
Proof.
  revert w. induction keys as [|a keys IH]; intros w.
  - simpl. by rewrite app_nil_r.
  - simpl for_of. rewrite run_bind, IH. unfold body.
    rewrite filter_cons. destruct (ne_null (get pm a)) eqn:Ha; simpl.
    + by rewrite <- app_assoc.
    + reflexivity.
Qed.

Lemma module_calls_define (pm : gmap string JsValue) (target : positive)
  (keys : list string) :
  module_calls (map (fun k => Reflect_defineMetadata k (get pm k) target) keys) = [].
Proof. induction keys as [|a keys IH]; [reflexivity | exact IH]. Qed.

Lemma VendurePlugin_trace (pm : gmap string JsValue) (target : positive) :
  trace (VendurePlugin PLUGIN_METADATA METADATA pm target)
  = (map (fun k => Reflect_defineMetadata k (get pm k) target)
       (filter (fun k => ne_null (get pm k) = true) (Object_values PLUGIN_METADATA))
     ++ [NestModule (nestModuleMetadata METADATA pm) target])%list.
Proof.
  unfold trace, VendurePlugin. rewrite run_seq, run_log_loop. reflexivity.
Qed.

(** C2.  Applied to [target], the decorator of [VendurePlugin(pluginMetadata)]
    calls [Reflect.defineMetadata(k, pluginMetadata[k], target)] for exactly
    the values [k] of [PLUGIN_METADATA] at which [pluginMetadata[k]] is
    neither [null] nor [undefined], in order, and then calls
    [Module(nestModuleMetadata)(target)] on the same target.  In the metadata
    store, when [Module] is entered the own metadata of [target] under each
    such key is [pluginMetadata[k]], and every other entry is as before. *)
Theorem VendurePlugin_registers (pm : gmap string JsValue) (target : positive) :
  trace (VendurePlugin PLUGIN_METADATA METADATA pm target)
  = (map (fun k => Reflect_defineMetadata k (get pm k) target)
       (filter (fun k => ne_null (get pm k) = true) (Object_values PLUGIN_METADATA))
     ++ [NestModule (nestModuleMetadata METADATA pm) target])%list
  /\ forall (N : Type)
       (nest : gmap string JsValue -> positive -> Store * N -> Store * N)
       (w : Store * N),
     let s := define_all pm target (Object_values PLUGIN_METADATA) w.1 in
     run (store_handler nest) (VendurePlugin PLUGIN_METADATA METADATA pm target) w
     = (tt, nest (nestModuleMetadata METADATA pm) target (s, w.2))
     /\ forall (t : positive) (k : string),
        s !! (t, k)
        = if bool_decide (t = target /\ k ∈ Object_values PLUGIN_METADATA)
             && ne_null (get pm k)
          then Some (get pm k)
          else w.1 !! (t, k).
Proof.
  split.
  - apply VendurePlugin_trace.
  - intros N nest w s. split.
    + unfold VendurePlugin. rewrite run_seq.
      rewrite run_store_loop. reflexivity.
    + intros t k. apply define_all_lookup.
Qed.

(** C8.  Whenever none of the five Vendure-specific keys is a value of
    [METADATA], the decorator hands one object to [Module], and of that
    object: its own properties are exactly those under the values of
    [METADATA], each holding what [pluginMetadata] reads as under that key
    ([undefined] where [pluginMetadata] has no such property), so that
    reading any key from it gives [pluginMetadata]'s value under a value of
    [METADATA] and [undefined] under every other key; none of
    [configuration], [shopApiExtensions], [adminApiExtensions], [workers],
    [entities] is a property of it; and a plugin metadata object that reads
    the same as [pluginMetadata] outside those five keys hands the same
    object to [Module]. *)
Theorem nestModuleMetadata_frame (pm : gmap string JsValue) (target : positive) :
  Forall (fun k => k ∉ Object_values METADATA) PluginTypes.vendure_specific_keys ->
  module_calls (trace (VendurePlugin PLUGIN_METADATA METADATA pm target))
  = [(nestModuleMetadata METADATA pm, target)]
  /\ (forall k : string,
        nestModuleMetadata METADATA pm !! k
        = if bool_decide (k ∈ Object_values METADATA)
          then Some (get pm k)
          else None)
  /\ (forall k : string,
        get (nestModuleMetadata METADATA pm) k
        = if bool_decide (k ∈ Object_values METADATA)
          then get pm k
          else JUndefined)
  /\ Forall (fun k => nestModuleMetadata METADATA pm !! k = None)
       PluginTypes.vendure_specific_keys
  /\ forall pm' : gmap string JsValue,
       (forall k, k ∉ PluginTypes.vendure_specific_keys -> get pm' k = get pm k) ->
       nestModuleMetadata METADATA pm' = nestModuleMetadata METADATA pm.
Proof.
  intros Hdisj. split; [|split; [|split; [|split]]].
  - rewrite VendurePlugin_trace.
    unfold module_calls. rewrite omap_app.
    fold (module_calls (map (fun k => Reflect_defineMetadata k (get pm k) target)
            (filter (fun k => ne_null (get pm k) = true)
               (Object_values PLUGIN_METADATA)))).
    rewrite module_calls_define. reflexivity.
  - intros k. apply pick_lookup.
  - intros k. apply pick_get.
  - eapply Forall_impl; [exact Hdisj|]. intros k Hk. cbn beta in *.
    unfold nestModuleMetadata. rewrite pick_lookup.
    by rewrite bool_decide_eq_false_2.
  - intros pm' Hagree. apply map_eq. intros k.
    unfold nestModuleMetadata. rewrite !pick_lookup.
    case_bool_decide as Hk; [|done]. f_equal. apply Hagree. intros Hv.
    rewrite Forall_forall in Hdisj. exact (Hdisj k Hv Hk).
Qed.

End PluginFacts.

Section PluginExamples.
Import Prog Js Plugin.

Example VendurePlugin_sample_trace :
  trace (VendurePlugin sample_PLUGIN_METADATA sample_METADATA sample_metadata 1)
  = [ Reflect_defineMetadata "workers" (JRef 12) 1;
      NestModule (<["imports" := JRef 10]> (<["providers" := JUndefined]>
                    (<["controllers" := JRef 11]> (<["exports" := JUndefined]> ∅)))) 1 ].
Proof. vm_compute. reflexivity. Qed.

Lemma sample_metadata_agree (k : string) :
  k ∉ PluginTypes.vendure_specific_keys ->
  get sample_metadata' k = get sample_metadata k.
Proof.
  intros Hk. unfold get. f_equal. unfold sample_metadata, sample_metadata'.
  assert (k <> "workers" /\ k <> "entities" /\ k <> "configuration") as (H1 & H2 & H3).
  { repeat split; intros ->; apply Hk; vm_compute; set_solver. }
  destruct (decide (k = "imports")) as [-> | ?]; [by rewrite !lookup_insert_eq|].
  destruct (decide (k = "controllers")) as [-> | ?]; by simplify_map_eq.
Qed.

Lemma nestModuleMetadata_frame_witness :
  Forall (fun k => k ∉ Object_values sample_METADATA) PluginTypes.vendure_specific_keys
  /\ module_calls (trace (VendurePlugin sample_PLUGIN_METADATA sample_METADATA sample_metadata 1))
     = [(nestModuleMetadata sample_METADATA sample_metadata, 1%positive)]
  /\ nestModuleMetadata sample_METADATA sample_metadata !! "imports" = Some (JRef 10)
  /\ nestModuleMetadata sample_METADATA sample_metadata !! "providers" = Some JUndefined
  /\ nestModuleMetadata sample_METADATA sample_metadata !! "workers" = None
  /\ nestModuleMetadata sample_METADATA sample_metadata'
     = nestModuleMetadata sample_METADATA sample_metadata.
Proof.
  assert (H : Forall (fun k => k ∉ Object_values sample_METADATA)
                PluginTypes.vendure_specific_keys).
  { vm_compute. repeat constructor; intros Hin;
      repeat (apply elem_of_cons in Hin as [Hin | Hin]; [discriminate Hin|]);
      by apply elem_of_nil in Hin. }
  destruct (nestModuleMetadata_frame sample_PLUGIN_METADATA sample_METADATA
              sample_metadata 1 H) as (Hcalls & Hlook & _ & Hnone & Hframe).
  split; [exact H|]. split; [exact Hcalls|].
  split; [rewrite Hlook; reflexivity|].
  split; [rewrite Hlook; reflexivity|].
  split; [rewrite Hlook; reflexivity|].
  apply Hframe. exact sample_metadata_agree.
Defined.

End PluginExamples.

(* ===================================================================== *)
(** * Properties of [WorkerModule] *)
(* ===================================================================== *)

Section WorkerFacts.
Import Prog Js Worker.

Lemma truthy_spec (signal : option string) :
  truthy signal = true <-> exists s : string, signal = Some s /\ s <> "".
Proof.
  split.
  - destruct signal as [[|c s]|]; simpl; try discriminate.
    intros _. exists (String c s). split; [reflexivity | discriminate].
  - intros (s & -> & Hs). destruct s; [congruence | reflexivity].
Qed.

Lemma shutdown_message_contains (s : string) : contains (shutdown_message s) s.
Proof.
  exists "Worker Received shutdown signal:", "". unfold shutdown_message.
  f_equal. induction s as [|c s IH]; [reflexivity|].
  change (String c s = String c (s ++ "")). by f_equal.
Qed.

(** C6.  [onModuleDestroy] is the single call
    [this.monitor.waitForOpenTasksToComplete()]: as a program it coincides
    with the delegation; under every implementation of the monitor and of
    the logger it makes exactly one call, returns the value the monitor
    returns, leaves the monitor in the state the monitor's own method put it
    in, and changes neither the fields of the instance nor the logger. *)
Theorem onModuleDestroy_delegates (this : WorkerModule) :
  onModuleDestroy this = delegate_to_monitor this
  /\ forall (M L : Type) (wait : positive -> M -> JsValue * M)
       (info : string -> L -> L) (w : World M L),
     run (handler wait info) (onModuleDestroy this) w
     = ((wait (monitor this) (monitors w)).1,
        mkWorld (this_fields w) (wait (monitor this) (monitors w)).2 (logger w))
     /\ calls (handler wait info) (onModuleDestroy this) w = 1.
Proof. split; [reflexivity|]. intros M L wait info w. split; reflexivity. Qed.

(** C10.  [onApplicationShutdown(signal)] calls [Logger.info] exactly when
    [signal] is truthy, that is a non-empty string, and then once, with the
    message ['Worker Received shutdown signal:' + signal], which contains the
    signal; when [signal] is absent or empty it makes no call and leaves the
    whole state as it was; in every case the fields of the instance and the
    state of the monitor are unchanged. *)
Theorem onApplicationShutdown_logs (this : WorkerModule) (signal : option string)
  (M L : Type) (wait : positive -> M -> JsValue * M) (info : string -> L -> L)
  (w : World M L) :
  let out := run (handler wait info) (onApplicationShutdown this signal) w in
  truthy signal
  = match signal with
    | Some s => bool_decide (s <> "")
    | None => false
    end
  /\ calls (handler wait info) (onApplicationShutdown this signal) w
     = (if truthy signal then 1 else 0)
  /\ logger out.2
     = (if truthy signal
        then info (shutdown_message (default "" signal)) (logger w)
        else logger w)
  /\ contains (shutdown_message (default "" signal)) (default "" signal)
  /\ (if truthy signal then True else out.2 = w)
  /\ this_fields out.2 = this_fields w
  /\ monitors out.2 = monitors w.
Proof.
  intros out. subst out. unfold onApplicationShutdown.
  split; [by destruct signal as [[|c s]|]|].
  split; [destruct (truthy signal); reflexivity|].
  split; [destruct (truthy signal); reflexivity|].
  split; [apply shutdown_message_contains|].
  destruct (truthy signal); simpl; repeat split.
Qed.

Example onApplicationShutdown_SIGTERM :
  logger (run (handler (fun _ (m : unit) => (JUndefined, m)) record_info)
            (onApplicationShutdown {| monitor := 1 |} (Some "SIGTERM"))
            (mkWorld {| monitor := 1 |} tt [])).2
  = ["Worker Received shutdown signal:SIGTERM"].
Proof. reflexivity. Qed.

Example onApplicationShutdown_empty :
  logger (run (handler (fun _ (m : unit) => (JUndefined, m)) record_info)
            (onApplicationShutdown {| monitor := 1 |} (Some ""))
            (mkWorld {| monitor := 1 |} tt [])).2
  = [].
Proof. reflexivity. Qed.

End WorkerFacts.

(* ===================================================================== *)
(** * Well-formedness of the job schema *)
(* ===================================================================== *)

Section SchemaCheckFacts.
Import JobSchema SchemaChecks.

(** X1.  The job schema refers to exactly five types that it does not
    define: [String], [Float], [JSON], [DateTime] and [Int]; of these [JSON]
    and [DateTime] are not built-in scalars and have to come from the rest
    of the schema.  No input object is used in output position and no
    object type in input position. *)
Theorem schema_references :
  undefined_refs schema = ["Float"; "JSON"; "DateTime"; "Int"; "String"]
  /\ filter (fun n => n ∉ builtin_scalars) (undefined_refs schema)
     = ["JSON"; "DateTime"]
  /\ Forall (fun n => kind_of n schema <> Some KInputObject) (output_refs schema)
  /\ Forall (fun n => kind_of n schema <> Some KObject) (input_refs schema).
Proof.
  split; [reflexivity|]. split; [reflexivity|].
  split; vm_compute; repeat constructor; discriminate.
Qed.

(** X2.  In the job schema no two definitions share a name, no definition
    has two members (fields, enum members, input fields) of the same name,
    and no field has two arguments of the same name. *)
Theorem schema_names_unique :
  NoDup (defined_names schema)
  /\ Forall (fun d => NoDup (member_names d)) schema
  /\ Forall (fun args => NoDup args) (argument_names schema).
Proof.
  split; [|split].
  - apply (bool_decide_unpack _). vm_compute. reflexivity.
  - apply (bool_decide_unpack _). vm_compute. reflexivity.
  - apply (bool_decide_unpack _). vm_compute. reflexivity.
Qed.

End SchemaCheckFacts.

(* ===================================================================== *)
(** * Exhaustiveness of [DefaultValueType] *)
(* ===================================================================== *)

Section CustomFieldCheckFacts.
Import TS CustomFieldTypes CustomFieldChecks.

Lemma literal_extends_false (t : string) (ls : list string) :
  t ∉ ls -> existsb (String.eqb t) ls = false.
Proof.
  induction ls as [|l ls IH]; intros Hout; [reflexivity|].
  simpl. rewrite IH by (intros H; apply Hout, elem_of_cons; by right).
  rewrite orb_false_r. apply String.eqb_neq. intros ->.
  apply Hout, elem_of_cons. by left.
Qed.

(** X3.  For every string literal [t], [DefaultValueType<t>] is [never]
    exactly when [t] is not one of the six custom field types; the literals
    that the branches of [DefaultValueType] test are the six members of
    [CustomFieldType], each once. *)
Theorem DefaultValueType_never_outside (t : string) :
  is_never (DefaultValueType t) = negb (bool_decide (t ∈ custom_field_types))
  /\ tested_literals "T" DefaultValueType_body = custom_field_types
  /\ NoDup custom_field_types.
Proof.
  split; [|split; [reflexivity | apply (bool_decide_unpack _); vm_compute; reflexivity]].
  change custom_field_types
    with ["string"; "localeString"; "int"; "float"; "boolean"; "datetime"].
  case_bool_decide as Hin.
  - repeat (apply elem_of_cons in Hin as [-> | Hin]; [reflexivity|]).
    by apply elem_of_nil in Hin.
  - unfold DefaultValueType, DefaultValueType_body. simpl resolve.
    unfold literal_extends. simpl literals.
    rewrite !literal_extends_false; [reflexivity | | | |];
      intros H; apply Hin;
      repeat (apply elem_of_cons in H as [-> | H]; [set_solver|]);
      by apply elem_of_nil in H.
Qed.

End CustomFieldCheckFacts.

(* ===================================================================== *)
(** * The decorator: calls, edge cases, composition *)
(* ===================================================================== *)

Section PluginRunFacts.
Import Prog Js Plugin PluginRuns.
Variable PLUGIN_METADATA : list (string * string).
Variable METADATA : list (string * string).

Lemma define_calls_trace (pm : gmap string JsValue) (target : positive) :
  define_calls (trace (VendurePlugin PLUGIN_METADATA METADATA pm target))
  = map (fun k => (k, get pm k, target))
      (filter (fun k => ne_null (get pm k) = true) (Object_values PLUGIN_METADATA)).
Proof.
  rewrite VendurePlugin_trace. unfold define_calls. rewrite omap_app. simpl.
  rewrite app_nil_r.
  induction (filter _ (Object_values PLUGIN_METADATA)) as [|a l IH];
    [reflexivity | simpl; by f_equal].
Qed.

Lemma filter_nullish (pm : gmap string JsValue) (keys : list string) :
  Forall (fun k => ne_null (get pm k) = false) keys ->
  filter (fun k => ne_null (get pm k) = true) keys = [].
Proof.
  induction 1 as [|k keys Hk _ IH]; [reflexivity|].
  rewrite filter_cons_False by congruence. exact IH.
Qed.

Lemma filter_agree (pm pm' : gmap string JsValue) (target : positive)
  (keys : list string) :
  Forall (fun k => get pm k = get pm' k
                   \/ (ne_null (get pm k) = false /\ ne_null (get pm' k) = false))
    keys ->
  map (fun k => (k, get pm k, target))
    (filter (fun k => ne_null (get pm k) = true) keys)
  = map (fun k => (k, get pm' k, target))
      (filter (fun k => ne_null (get pm' k) = true) keys).
Proof.
  induction 1 as [|k keys Hk _ IH]; [reflexivity|].
  rewrite !filter_cons. destruct Hk as [Heq | [H1 H2]].
  - rewrite <- Heq. destruct (decide (ne_null (get pm k) = true)); simpl;
      by rewrite ?Heq, IH.
  - rewrite !decide_False by congruence. exact IH.
Qed.

Lemma run_VendurePlugin {N : Type}
  (nest : gmap string JsValue -> positive -> Store * N -> Store * N)
  (pm : gmap string JsValue) (target : positive) (w : Store * N) :
  run (store_handler nest) (VendurePlugin PLUGIN_METADATA METADATA pm target) w
  = (tt, nest (nestModuleMetadata METADATA pm) target
           (define_all pm target (Object_values PLUGIN_METADATA) w.1, w.2)).
Proof. unfold VendurePlugin. rewrite run_seq, run_store_loop. reflexivity. Qed.

Lemma decorate_lookup {N : Type}
  (nest : gmap string JsValue -> positive -> Store * N -> Store * N)
  (pm : gmap string JsValue) (target : positive) (w : Store * N)
  (t : positive) (k : string) :
  preserves nest (Object_values PLUGIN_METADATA) (nestModuleMetadata METADATA pm) ->
  k ∈ Object_values PLUGIN_METADATA ->
  (decorate PLUGIN_METADATA METADATA nest pm target w).1 !! (t, k)
  = if bool_decide (t = target) && ne_null (get pm k)
    then Some (get pm k)
    else w.1 !! (t, k).
Proof.
  intros Hnest Hk. unfold decorate. rewrite run_VendurePlugin.
  cbn [snd]. rewrite Hnest by exact Hk. cbn [fst].
  rewrite define_all_lookup.
  destruct (decide (t = target)) as [-> | Hne].
  - by rewrite !bool_decide_eq_true_2.
  - rewrite (bool_decide_eq_false_2 (t = target)) by done.
    rewrite bool_decide_eq_false_2 by tauto. reflexivity.
Qed.

(** X4.  Whatever the tables and the metadata, the decorator makes exactly
    one [Module] call, as its last call; every call it makes is addressed to
    the class it decorates; and it makes one [Reflect.defineMetadata] call
    per value of [PLUGIN_METADATA] at which the metadata is not nullish, so
    at most one per entry of the table. *)
Theorem VendurePlugin_calls_shape (pm : gmap string JsValue) (target : positive) :
  let tr := trace (VendurePlugin PLUGIN_METADATA METADATA pm target) in
  last tr = Some (NestModule (nestModuleMetadata METADATA pm) target)
  /\ length (module_calls tr) = 1
  /\ Forall (fun e => call_target e = target) tr
  /\ length (define_calls tr)
     = length (filter (fun k => ne_null (get pm k) = true)
                 (Object_values PLUGIN_METADATA))
  /\ length tr <= S (length PLUGIN_METADATA).
Proof.
  intros tr. split; [|split; [|split; [|split]]].
  - subst tr. rewrite VendurePlugin_trace. apply last_snoc.
  - subst tr. rewrite VendurePlugin_trace. unfold module_calls.
    rewrite omap_app.
    fold (module_calls (map (fun k => Reflect_defineMetadata k (get pm k) target)
            (filter (fun k => ne_null (get pm k) = true)
               (Object_values PLUGIN_METADATA)))).
    rewrite module_calls_define. reflexivity.
  - subst tr. rewrite VendurePlugin_trace. apply Forall_app. split.
    + apply Forall_forall. intros e He. apply list_elem_of_In in He.
      apply in_map_iff in He as (k & <- & _). reflexivity.
    + repeat constructor.
  - subst tr. rewrite define_calls_trace. apply length_map.
  - subst tr. rewrite VendurePlugin_trace, length_app, length_map. simpl.
    pose proof (length_filter (fun k => ne_null (get pm k) = true)
                  (Object_values PLUGIN_METADATA)) as Hle.
    unfold Object_values in *. rewrite length_fmap in Hle. lia.
Qed.

(** X5.  Applied with an empty metadata object, the decorator defines no
    Reflect entry: its only call is [Module], and [Module] is entered with
    the metadata store as it was. *)
Theorem VendurePlugin_empty (target : positive) :
  trace (VendurePlugin PLUGIN_METADATA METADATA ∅ target)
  = [NestModule (nestModuleMetadata METADATA ∅) target]
  /\ forall (N : Type)
       (nest : gmap string JsValue -> positive -> Store * N -> Store * N)
       (s : Store) (n : N),
     run (store_handler nest) (VendurePlugin PLUGIN_METADATA METADATA ∅ target) (s, n)
     = (tt, nest (nestModuleMetadata METADATA ∅) target (s, n)).
Proof.
  assert (Hnull : Forall (fun k => ne_null (get (∅ : gmap string JsValue) k) = false)
                    (Object_values PLUGIN_METADATA)).
  { apply Forall_forall. intros k _. unfold get. by rewrite lookup_empty. }
  split.
  - rewrite VendurePlugin_trace, filter_nullish by exact Hnull. reflexivity.
  - intros N nest s n. rewrite run_VendurePlugin. do 2 f_equal. cbn [fst snd].
    f_equal. apply map_eq. intros [t k]. rewrite define_all_lookup.
    unfold get. rewrite lookup_empty. simpl. by rewrite andb_false_r.
Qed.

(** X6.  The [Reflect.defineMetadata] calls depend only on what the metadata
    object reads as under the values of [PLUGIN_METADATA], and do not tell
    [null], [undefined] and an absent property apart: two metadata objects
    that, under each such value, read the same or both read nullish, give
    the same [Reflect.defineMetadata] calls and the same store at the entry
    of [Module]. *)
Theorem VendurePlugin_nullish_alike (pm pm' : gmap string JsValue)
  (target : positive) :
  Forall (fun k => get pm k = get pm' k
                   \/ (ne_null (get pm k) = false /\ ne_null (get pm' k) = false))
    (Object_values PLUGIN_METADATA) ->
  define_calls (trace (VendurePlugin PLUGIN_METADATA METADATA pm target))
  = define_calls (trace (VendurePlugin PLUGIN_METADATA METADATA pm' target))
  /\ forall s : Store,
       define_all pm target (Object_values PLUGIN_METADATA) s
       = define_all pm' target (Object_values PLUGIN_METADATA) s.
Proof.
  intros Hagree. split.
  - rewrite !define_calls_trace. by apply filter_agree.
  - intros s. apply map_eq. intros [t k]. rewrite !define_all_lookup.
    case_bool_decide as Hin; [|reflexivity]. destruct Hin as [_ Hin].
    rewrite Forall_forall in Hagree.
    destruct (Hagree k Hin) as [-> | [-> ->]]; reflexivity.
Qed.

End PluginRunFacts.

Section PluginComposeFacts.
Import Prog Js Plugin PluginRuns.

Lemma define_properties_lookup (m : gmap string JsValue) (t : positive)
  (w : Store * unit) (t' : positive) (k' : string) :
  (define_properties m t w).1 !! (t', k')
  = if bool_decide (t' = t)
    then match m !! k' with Some v => Some v | None => w.1 !! (t', k') end
    else w.1 !! (t', k').
Proof.
  unfold define_properties. cbn [fst].
  apply (map_fold_weak_ind
           (fun (r : Store) (m : gmap string JsValue) =>
              r !! (t', k')
              = if bool_decide (t' = t)
                then match m !! k' with Some v => Some v | None => w.1 !! (t', k') end
                else w.1 !! (t', k'))).
  - rewrite lookup_empty. by case_bool_decide.
  - intros i x m0 r Hi IH.
    destruct (decide ((t, i) = (t', k'))) as [[= <- <-] | Hne].
    + rewrite !lookup_insert_eq. by rewrite bool_decide_eq_true_2.
    + rewrite lookup_insert_ne by exact Hne. rewrite IH.
      case_bool_decide as Ht; [|reflexivity]. subst t'.
      rewrite lookup_insert_ne; [reflexivity|]. intros ->. by apply Hne.
Qed.

Lemma define_properties_preserves (keys : list string) (m : gmap string JsValue) :
  Forall (fun k => m !! k = None) keys -> preserves define_properties keys m.
Proof.
  intros Hnone t w t' k' Hk. rewrite define_properties_lookup.
  rewrite Forall_forall in Hnone. rewrite (Hnone k' Hk). by case_bool_decide.
Qed.

Lemma sample_preserves (pm : gmap string JsValue) :
  preserves define_properties (Object_values sample_PLUGIN_METADATA)
    (nestModuleMetadata sample_METADATA pm).
Proof.
  apply define_properties_preserves. unfold nestModuleMetadata.
  apply Forall_forall. intros k Hk. rewrite pick_lookup.
  rewrite bool_decide_eq_false_2; [reflexivity|]. intros Hmd.
  vm_compute in Hk, Hmd.
  repeat (apply elem_of_cons in Hk as [-> | Hk];
          [ repeat (apply elem_of_cons in Hmd as [Hmd | Hmd]; [discriminate Hmd|]);
            by apply elem_of_nil in Hmd |]).
  by apply elem_of_nil in Hk.
Qed.

(** X7.  Two [PLUGIN_METADATA] tables with the same set of values, in
    whatever order and with whatever repetitions, make the decorator define
    the same entries: the same set of [Reflect.defineMetadata] calls (their
    order and number follow the table), and the same value under every
    class and key in the store at the entry of [Module]. *)
Theorem VendurePlugin_table_order (PM PM' METADATA : list (string * string)) :
  (forall k : string, k ∈ Object_values PM <-> k ∈ Object_values PM') ->
  forall (pm : gmap string JsValue) (target : positive),
    (forall c : string * JsValue * positive,
       c ∈ define_calls (trace (VendurePlugin PM METADATA pm target))
       <-> c ∈ define_calls (trace (VendurePlugin PM' METADATA pm target)))
    /\ forall (s : Store) (t : positive) (k : string),
         define_all pm target (Object_values PM) s !! (t, k)
         = define_all pm target (Object_values PM') s !! (t, k).
Proof.
  intros Hsame pm target. split.
  - intros c. rewrite !define_calls_trace, !list_elem_of_In, !in_map_iff.
    split; intros (k & Hc & Hk); exists k; (split; [exact Hc|]);
      apply list_elem_of_In, list_elem_of_filter;
      apply list_elem_of_In, list_elem_of_filter in Hk as [Hn Hk];
      (split; [exact Hn | by apply Hsame]).
  - intros s t k. rewrite !define_all_lookup.
    rewrite (bool_decide_ext (t = target /\ k ∈ Object_values PM)
               (t = target /\ k ∈ Object_values PM')); [reflexivity|].
    by rewrite Hsame.
Qed.

(** X8.  When [Module], called with the object the decorator hands it,
    leaves the entries under the values of [PLUGIN_METADATA] alone, the
    decorated class carries its Vendure metadata once the decorator returns:
    under each such value [k], the entry of the decorated class is
    [pluginMetadata[k]] if that is not nullish and is as before otherwise,
    and the entries of every other class are as before. *)
Theorem VendurePlugin_metadata_survives (PM METADATA : list (string * string))
  (N : Type) (nest : gmap string JsValue -> positive -> Store * N -> Store * N)
  (pm : gmap string JsValue) (target : positive) (w : Store * N)
  (t : positive) (k : string) :
  preserves nest (Object_values PM) (nestModuleMetadata METADATA pm) ->
  k ∈ Object_values PM ->
  (decorate PM METADATA nest pm target w).1 !! (t, k)
  = if bool_decide (t = target) && ne_null (get pm k)
    then Some (get pm k)
    else w.1 !! (t, k).
Proof. apply decorate_lookup. Qed.

(** X9.  Decorating the same class twice, under the same assumption on
    [Module]: under each value [k] of [PLUGIN_METADATA] the second
    decoration overrides the first where its metadata is not nullish and
    keeps the first's entry where it is nullish; the decorator never removes
    an entry.  Decorating twice with the same metadata gives the entries of
    decorating once. *)
Theorem VendurePlugin_twice (PM METADATA : list (string * string))
  (N : Type) (nest : gmap string JsValue -> positive -> Store * N -> Store * N)
  (pm1 pm2 : gmap string JsValue) (target : positive) (w : Store * N)
  (k : string) :
  preserves nest (Object_values PM) (nestModuleMetadata METADATA pm1) ->
  preserves nest (Object_values PM) (nestModuleMetadata METADATA pm2) ->
  k ∈ Object_values PM ->
  (decorate PM METADATA nest pm2 target
     (decorate PM METADATA nest pm1 target w)).1 !! (target, k)
  = (if ne_null (get pm2 k) then Some (get pm2 k)
     else if ne_null (get pm1 k) then Some (get pm1 k)
     else w.1 !! (target, k))
  /\ (decorate PM METADATA nest pm1 target
        (decorate PM METADATA nest pm1 target w)).1 !! (target, k)
     = (decorate PM METADATA nest pm1 target w).1 !! (target, k).
Proof.
  intros H1 H2 Hk. rewrite !decorate_lookup by assumption.
  rewrite !bool_decide_eq_true_2 by reflexivity. simpl.
  split; [reflexivity|]. by destruct (ne_null (get pm1 k)).
Qed.

(** X10.  Decorations of two different classes do not interfere: under the
    same assumption on [Module], the entries under the values of
    [PLUGIN_METADATA] are the same whichever class is decorated first. *)
Theorem VendurePlugin_distinct_targets (PM METADATA : list (string * string))
  (N : Type) (nest : gmap string JsValue -> positive -> Store * N -> Store * N)
  (pm1 pm2 : gmap string JsValue) (t1 t2 : positive) (w : Store * N)
  (t : positive) (k : string) :
  t1 <> t2 ->
  preserves nest (Object_values PM) (nestModuleMetadata METADATA pm1) ->
  preserves nest (Object_values PM) (nestModuleMetadata METADATA pm2) ->
  k ∈ Object_values PM ->
  (decorate PM METADATA nest pm2 t2 (decorate PM METADATA nest pm1 t1 w)).1 !! (t, k)
  = (decorate PM METADATA nest pm1 t1 (decorate PM METADATA nest pm2 t2 w)).1 !! (t, k).
Proof.
  intros Hne H1 H2 Hk. rewrite !decorate_lookup by assumption.
  destruct (decide (t = t1)) as [-> | Hn1].
  - rewrite (bool_decide_eq_false_2 (t1 = t2)) by exact Hne. reflexivity.
  - rewrite (bool_decide_eq_false_2 (t = t1)) by exact Hn1. reflexivity.
Qed.

End PluginComposeFacts.

Section PluginRunExamples.
Import Prog Js Plugin PluginRuns.

Lemma workers_in_sample : "workers" ∈ Object_values sample_PLUGIN_METADATA.
Proof. vm_compute. set_solver. Qed.

Lemma VendurePlugin_nullish_alike_witness :
  Forall (fun k => get sample_metadata k = get (<["workers" := JRef 12]> ∅) k
                   \/ (ne_null (get sample_metadata k) = false
                       /\ ne_null (get (<["workers" := JRef 12]> ∅) k) = false))
    (Object_values sample_PLUGIN_METADATA)
  /\ define_calls (trace (VendurePlugin sample_PLUGIN_METADATA sample_METADATA
                            sample_metadata 1))
     = define_calls (trace (VendurePlugin sample_PLUGIN_METADATA sample_METADATA
                              (<["workers" := JRef 12]> ∅) 1)).
Proof.
  assert (H : Forall (fun k => get sample_metadata k = get (<["workers" := JRef 12]> ∅) k
                   \/ (ne_null (get sample_metadata k) = false
                       /\ ne_null (get (<["workers" := JRef 12]> ∅) k) = false))
                (Object_values sample_PLUGIN_METADATA)).
  { change (Object_values sample_PLUGIN_METADATA)
      with [ "configuration"; "shopApiExtensions"; "adminApiExtensions";
             "workers"; "entities" ].
    repeat (apply Forall_cons; split;
            [first [left; reflexivity | right; split; reflexivity]|]).
    constructor. }
  split; [exact H|].
  exact (proj1 (VendurePlugin_nullish_alike sample_PLUGIN_METADATA sample_METADATA
                  sample_metadata (<["workers" := JRef 12]> ∅) 1 H)).
Defined.

Lemma VendurePlugin_table_order_witness :
  (forall k : string,
     k ∈ Object_values sample_PLUGIN_METADATA
     <-> k ∈ Object_values [ ("WORKERS", "workers"); ("ENTITIES", "entities");
                             ("ADMIN", "adminApiExtensions");
                             ("SHOP", "shopApiExtensions");
                             ("CONFIGURATION", "configuration");
                             ("WORKERS_AGAIN", "workers") ])
  /\ define_all sample_metadata 1 (Object_values sample_PLUGIN_METADATA) ∅
       !! (1%positive, "workers")
     = define_all sample_metadata 1
         (Object_values [ ("WORKERS", "workers"); ("ENTITIES", "entities");
                          ("ADMIN", "adminApiExtensions");
                          ("SHOP", "shopApiExtensions");
                          ("CONFIGURATION", "configuration");
                          ("WORKERS_AGAIN", "workers") ]) ∅
         !! (1%positive, "workers").
Proof.
  assert (H : forall k : string,
     k ∈ Object_values sample_PLUGIN_METADATA
     <-> k ∈ Object_values [ ("WORKERS", "workers"); ("ENTITIES", "entities");
                             ("ADMIN", "adminApiExtensions");
                             ("SHOP", "shopApiExtensions");
                             ("CONFIGURATION", "configuration");
                             ("WORKERS_AGAIN", "workers") ]).
  { intros k. unfold Object_values, sample_PLUGIN_METADATA. simpl.
    rewrite !elem_of_cons, !elem_of_nil. tauto. }
  split; [exact H|].
  exact (proj2 (VendurePlugin_table_order _ _ sample_METADATA H sample_metadata 1)
           ∅ 1%positive "workers").
Defined.

Lemma VendurePlugin_metadata_survives_witness :
  preserves define_properties (Object_values sample_PLUGIN_METADATA)
    (nestModuleMetadata sample_METADATA sample_metadata)
  /\ "workers" ∈ Object_values sample_PLUGIN_METADATA
  /\ (decorate sample_PLUGIN_METADATA sample_METADATA define_properties
        sample_metadata 1 (∅, tt)).1 !! (1%positive, "workers")
     = Some (JRef 12).
Proof.
  split; [apply sample_preserves|]. split; [exact workers_in_sample|].
  exact (VendurePlugin_metadata_survives sample_PLUGIN_METADATA sample_METADATA
           unit define_properties sample_metadata 1 (∅, tt) 1 "workers"
           (sample_preserves sample_metadata) workers_in_sample).
Defined.

Lemma VendurePlugin_twice_witness :
  preserves define_properties (Object_values sample_PLUGIN_METADATA)
    (nestModuleMetadata sample_METADATA sample_metadata)
  /\ preserves define_properties (Object_values sample_PLUGIN_METADATA)
       (nestModuleMetadata sample_METADATA sample_metadata')
  /\ "workers" ∈ Object_values sample_PLUGIN_METADATA
  /\ (decorate sample_PLUGIN_METADATA sample_METADATA define_properties
        sample_metadata' 1
        (decorate sample_PLUGIN_METADATA sample_METADATA define_properties
           sample_metadata 1 (∅, tt))).1 !! (1%positive, "workers")
     = Some (JRef 12).
Proof.
  split; [apply sample_preserves|]. split; [apply sample_preserves|].
  split; [exact workers_in_sample|].
  exact (proj1 (VendurePlugin_twice sample_PLUGIN_METADATA sample_METADATA
                  unit define_properties sample_metadata sample_metadata' 1
                  (∅, tt) "workers"
                  (sample_preserves sample_metadata)
                  (sample_preserves sample_metadata') workers_in_sample)).
Defined.

Lemma VendurePlugin_distinct_targets_witness :
  1%positive <> 2%positive
  /\ preserves define_properties (Object_values sample_PLUGIN_METADATA)
       (nestModuleMetadata sample_METADATA sample_metadata)
  /\ preserves define_properties (Object_values sample_PLUGIN_METADATA)
       (nestModuleMetadata sample_METADATA sample_metadata')
  /\ "workers" ∈ Object_values sample_PLUGIN_METADATA
  /\ (decorate sample_PLUGIN_METADATA sample_METADATA define_properties
        sample_metadata' 2
        (decorate sample_PLUGIN_METADATA sample_METADATA define_properties
           sample_metadata 1 (∅, tt))).1 !! (1%positive, "workers")
     = (decorate sample_PLUGIN_METADATA sample_METADATA define_properties
          sample_metadata 1
          (decorate sample_PLUGIN_METADATA sample_METADATA define_properties
             sample_metadata' 2 (∅, tt))).1 !! (1%positive, "workers").
Proof.
  assert (Hne : 1%positive <> 2%positive) by discriminate.
  split; [exact Hne|].
  split; [apply sample_preserves|]. split; [apply sample_preserves|].
  split; [exact workers_in_sample|].
  exact (VendurePlugin_distinct_targets sample_PLUGIN_METADATA sample_METADATA
           unit define_properties sample_metadata sample_metadata' 1 2
           (∅, tt) 1 "workers" Hne
           (sample_preserves sample_metadata)
           (sample_preserves sample_metadata') workers_in_sample).
Defined.

End PluginRunExamples.

(* ===================================================================== *)
(** * [WorkerModule]: the log and the declaration *)
(* ===================================================================== *)

Section WorkerLogFacts.
Import Prog Js Worker WorkerDecl.

Lemma append_inj_l (p a b : string) : p ++ a = p ++ b -> a = b.
Proof.
  induction p as [|c p IH]; intros H; [exact H|].
  change (String c (p ++ a) = String c (p ++ b)) in H.
  injection H as H. by apply IH.
Qed.

Lemma truthy_default (s : option string) :
  truthy s = true -> s = Some (default "" s).
Proof. destruct s as [[|c s]|]; simpl; congruence. Qed.

(** X11.  The shutdown log identifies the signal: if two calls of
    [onApplicationShutdown] with truthy signals, started from the same log,
    leave the same log, the two signals are the same string. *)
Theorem shutdown_log_identifies_signal (this : WorkerModule)
  (s1 s2 : option string) (M : Type) (wait : positive -> M -> JsValue * M)
  (w : World M (list string)) :
  truthy s1 = true ->
  truthy s2 = true ->
  logger (run (handler wait record_info) (onApplicationShutdown this s1) w).2
  = logger (run (handler wait record_info) (onApplicationShutdown this s2) w).2 ->
  s1 = s2.
Proof.
  intros H1 H2. unfold onApplicationShutdown. rewrite H1, H2. simpl.
  unfold record_info. intros Hlog. apply app_inv_head in Hlog.
  injection Hlog as Hmsg. apply append_inj_l in Hmsg.
  rewrite (truthy_default s1 H1), (truthy_default s2 H2). by f_equal.
Qed.

Lemma shutdown_log_identifies_signal_witness :
  truthy (Some "SIGTERM") = true
  /\ logger (run (handler (fun _ (m : unit) => (JUndefined, m)) record_info)
               (onApplicationShutdown {| monitor := 1 |} (Some "SIGTERM"))
               (mkWorld {| monitor := 1 |} tt [])).2
     = ["Worker Received shutdown signal:SIGTERM"]
  /\ Some "SIGTERM" = Some "SIGTERM".
Proof.
  split; [reflexivity|]. split; [reflexivity|].
  exact (shutdown_log_identifies_signal {| monitor := 1 |}
           (Some "SIGTERM") (Some "SIGTERM") unit (fun _ m => (JUndefined, m))
           (mkWorld {| monitor := 1 |} tt []) eq_refl eq_refl eq_refl).
Defined.

(** X12.  The declaration of [WorkerModule] is consistent with its use: the
    class of every constructor parameter ([WorkerMonitor]) is among the
    classes the module provides; for each hook interface [OnX] the class
    implements it has a method [onX]; and the object passed to [@Module]
    has only the properties [imports] and [providers]. *)
Theorem WorkerModule_declaration :
  Forall (fun p => p.2 ∈ provided_classes module_metadata) constructor_params
  /\ Forall (fun i => uncapitalize i ∈ map fst class_methods) implements
  /\ map fst module_metadata = ["imports"; "providers"].
Proof.
  split; [|split; [|reflexivity]].
  - repeat constructor.
  - repeat constructor; vm_compute; set_solver.
Qed.

End WorkerLogFacts.
